(** * CodebaseLister: a shallow embedding of [codebaselister/main.py]

    The listing of [main.py] keeps the text of [_read_files_content] and of
    the second [generate_listing_file] after an unterminated docstring; the
    embedding reads them as the two methods they spell out.

    Python values are modelled as follows.
    - [str] is [string]; [len] is [String.length].
    - An exception is a class tag with the text [str(e)] gives.
    - Code that can raise returns a [result].
    - What a [for] loop can iterate over is an [Iterable]: a list, which can
      be iterated again and has a length, or a generator object, which hands
      out each item once and has no length.
    - The directory tree under the base path keeps, for every directory, its
      children in the order [os.scandir] reports them. *)

From Stdlib Require Import String Ascii List Bool Arith Lia QArith Permutation.
Import ListNotations.
Local Open Scope string_scope.
Local Open Scope list_scope.
Local Open Scope nat_scope.

(** ** Exceptions and results *)

Inductive ExnClass :=
| FileNotFoundError
| PermissionError
| IsADirectoryError
| UnicodeDecodeError
| OSError
| TypeError
| IndexError.

Record Exn := mkExn { exn_class : ExnClass; exn_str : string }.

(** Every class above derives from [Exception]; [except Exception] asks. *)
Definition is_Exception (c : ExnClass) : bool :=
  match c with
  | FileNotFoundError | PermissionError | IsADirectoryError
  | UnicodeDecodeError | OSError | TypeError | IndexError => true
  end.

Definition is_FileNotFoundError (c : ExnClass) : bool :=
  match c with FileNotFoundError => true | _ => false end.

Inductive result (A : Type) :=
| Return (a : A)
| Raise (e : Exn).
Arguments Return {A} a.
Arguments Raise {A} e.

Definition bind {A B} (r : result A) (k : A -> result B) : result B :=
  match r with
  | Return a => k a
  | Raise e => Raise e
  end.

Notation "x <- r ;; k" := (bind r (fun x => k))
  (at level 61, r at next level, right associativity).

(** [try: body / except <cls> as e: handler]. *)
Definition try_except {A} (body : result A) (catches : ExnClass -> bool)
           (handler : Exn -> result A) : result A :=
  match body with
  | Return a => Return a
  | Raise e => if catches (exn_class e) then handler e else Raise e
  end.

(** ** Iterables *)

Inductive Iterable :=
| PyList (items : list string)
| PyGenerator (pending : list string) (fault : option Exn).

(** One complete [for] loop over an iterable: the items it hands out, the
    exception the iterator itself raises after them (if any), and the
    iterable as the loop leaves it. *)
Definition iterate (it : Iterable) : list string * option Exn * Iterable :=
  match it with
  | PyList items => (items, None, PyList items)
  | PyGenerator pending fault => (pending, fault, PyGenerator [] None)
  end.

Definition py_len (it : Iterable) : result nat :=
  match it with
  | PyList items => Return (List.length items)
  | PyGenerator _ _ =>
      Raise (mkExn TypeError "object of type 'generator' has no len()")
  end.

(** ** The file system *)

Inductive FileNode :=
| Regular (content : string)
| Unreadable (e : Exn).

Inductive Dir :=
| MkDir (files : list (string * FileNode)) (subdirs : Dirs)
with Dirs :=
| DNil
| DCons (name : string) (d : Dir) (rest : Dirs).

Record World := mkWorld {
  mount : string;            (* the path the tree is found at *)
  tree : Dir;
  unwritable : list string   (* paths [open(_, 'w')] is refused on *)
}.

Definition nl : string := String (ascii_of_nat 10) EmptyString.

Definition ends_with_sep (s : string) : bool :=
  match get (String.length s - 1) s with
  | Some c => Ascii.eqb c "/"
  | None => false
  end.

Definition starts_with_sep (s : string) : bool :=
  match s with
  | String c _ => Ascii.eqb c "/"
  | EmptyString => false
  end.

(** [os.path.join(a, b)] of posixpath. *)
Definition os_path_join (a b : string) : string :=
  if starts_with_sep b then b
  else if (a =? "")%string || ends_with_sep a then a ++ b
  else a ++ "/" ++ b.

Fixpoint dir_names (ds : Dirs) : list string :=
  match ds with
  | DNil => []
  | DCons name _ rest => name :: dir_names rest
  end.

(** [os.walk(top)], top-down, symbolic links and scan errors left out. *)
Fixpoint walk (top : string) (d : Dir)
  : list (string * list string * list string) :=
  match d with
  | MkDir files subdirs =>
      (top, dir_names subdirs, map fst files) :: walk_dirs top subdirs
  end
with walk_dirs (top : string) (ds : Dirs)
  : list (string * list string * list string) :=
  match ds with
  | DNil => []
  | DCons name d rest => walk (os_path_join top name) d ++ walk_dirs top rest
  end.

Inductive Entry :=
| EFile (f : FileNode)
| EDir (d : Dir).

Fixpoint index (top : string) (d : Dir) : list (string * Entry) :=
  match d with
  | MkDir files subdirs =>
      (top, EDir d)
        :: map (fun f => (os_path_join top (fst f), EFile (snd f))) files
        ++ index_dirs top subdirs
  end
with index_dirs (top : string) (ds : Dirs) : list (string * Entry) :=
  match ds with
  | DNil => []
  | DCons name d rest => index (os_path_join top name) d ++ index_dirs top rest
  end.

Fixpoint lookup (path : string) (ix : list (string * Entry)) : option Entry :=
  match ix with
  | [] => None
  | (p, e) :: ix' => if (p =? path)%string then Some e else lookup path ix'
  end.

Definition stat (w : World) (path : string) : option Entry :=
  lookup path (index (mount w) (tree w)).

(** [os.walk] gives nothing when [top] cannot be scanned. *)
Definition os_walk (w : World) (top : string)
  : list (string * list string * list string) :=
  match stat w top with
  | Some (EDir d) => walk top d
  | _ => []
  end.

(** [with open(path, 'r') as file: file.read()]. *)
Definition open_read (w : World) (path : string) : result string :=
  match stat w path with
  | Some (EFile (Regular content)) => Return content
  | Some (EFile (Unreadable e)) => Raise e
  | Some (EDir _) =>
      Raise (mkExn IsADirectoryError
               ("[Errno 21] Is a directory: '" ++ path ++ "'"))
  | None =>
      Raise (mkExn FileNotFoundError
               ("[Errno 2] No such file or directory: '" ++ path ++ "'"))
  end.

(** [open(path, 'w')]: the exception it raises, if any. *)
Definition open_write (w : World) (path : string) : option Exn :=
  if existsb (String.eqb path) (unwritable w)
  then Some (mkExn PermissionError
               ("[Errno 13] Permission denied: '" ++ path ++ "'"))
  else None.

(** ** The ignore-pattern engine

    [main.py] imports it ([pathspec], pattern style [gitwildmatch]); its code
    is not part of the repository's sources. *)

Module PathSpec.

Inductive Glob :=
| GChar (c : ascii)
| GAny
| GStar
| GClass (negate : bool) (ranges : list (ascii * ascii)).

Inductive Seg :=
| SegGlob (g : list Glob)
| SegDeep.

Record Rule := mkRule {
  negated : bool;
  dir_only : bool;
  anchored : bool;
  segs : list Seg
}.

Definition is_space (c : ascii) : bool :=
  Ascii.eqb c " " || Ascii.eqb c (ascii_of_nat 9)
  || Ascii.eqb c (ascii_of_nat 10) || Ascii.eqb c (ascii_of_nat 13).

Fixpoint drop_spaces (s : list ascii) : list ascii :=
  match s with
  | c :: s' => if is_space c then drop_spaces s' else s
  | [] => []
  end.

Definition rstrip (s : list ascii) : list ascii :=
  rev (drop_spaces (rev s)).

Fixpoint split_on (sep : ascii) (cur : list ascii) (s : list ascii)
  : list (list ascii) :=
  match s with
  | [] => [rev cur]
  | c :: s' =>
      if Ascii.eqb c sep then rev cur :: split_on sep [] s'
      else split_on sep (c :: cur) s'
  end.

Definition closes (s : list ascii) : bool :=
  existsb (Ascii.eqb "]") s.

(** Modelled from the spec: the wildcards of one path segment, "[*], [?],
    [[...]] behave as shell glob wildcards within a path segment".  [cls]
    holds the character class being read, if one is open. *)
Fixpoint tokens (cls : option (bool * list (ascii * ascii)))
         (s : list ascii) : list Glob :=
  match s with
  | [] => []
  | c :: r =>
      match cls with
      | Some (neg, rs) =>
          if Ascii.eqb c "]" then GClass neg (rev rs) :: tokens None r
          else
            match r with
            | d :: b :: r2 =>
                if Ascii.eqb d "-" && negb (Ascii.eqb b "]")
                then tokens (Some (neg, (c, b) :: rs)) r2
                else tokens (Some (neg, (c, c) :: rs)) r
            | _ => tokens (Some (neg, (c, c) :: rs)) r
            end
      | None =>
          if Ascii.eqb c "*" then GStar :: tokens None r
          else if Ascii.eqb c "?" then GAny :: tokens None r
          else if Ascii.eqb c "[" && closes r then
            match r with
            | n :: r' =>
                if Ascii.eqb n "!" then tokens (Some (true, [])) r'
                else tokens (Some (false, [])) r
            | [] => []
            end
          else GChar c :: tokens None r
      end
  end.

Definition is_deep (s : list ascii) : bool :=
  match s with
  | [a; b] => Ascii.eqb a "*" && Ascii.eqb b "*"
  | _ => false
  end.

Definition seg_of (s : list ascii) : Seg :=
  if is_deep s then SegDeep else SegGlob (tokens None s).

Definition strip_prefix (c : ascii) (s : list ascii) : bool * list ascii :=
  match s with
  | x :: s' => if Ascii.eqb x c then (true, s') else (false, s)
  | [] => (false, [])
  end.

Definition strip_suffix (c : ascii) (s : list ascii) : bool * list ascii :=
  let '(b, r) := strip_prefix c (rev s) in (b, rev r).

Definition is_comment (s : list ascii) : bool :=
  match s with
  | c :: _ => Ascii.eqb c "#"
  | [] => true
  end.

(** Modelled from the spec: one pattern line.  "Blank lines and lines
    starting with [#] are ignored", "a leading [!] negates the rule", "a
    trailing [/] restricts the rule to directories", a leading [/] anchors
    the rule to the root, and [**] "matches across segment boundaries". *)
Definition parse_line (line : string) : option Rule :=
  let s := rstrip (list_ascii_of_string line) in
  if is_comment s then None
  else
    let '(neg, s1) := strip_prefix "!" s in
    let '(anc, s2) := strip_prefix "/" s1 in
    let '(dir, s3) := strip_suffix "/" s2 in
    Some (mkRule neg dir anc (map seg_of (split_on "/" [] s3))).

Definition PathSpec := list Rule.

(** Modelled from the spec: [compile(lines) -> PatternSet], in the source
    [pathspec.PathSpec.from_lines('gitwildmatch', file)]. *)
Definition from_lines (lines : list string) : PathSpec :=
  flat_map (fun l => match parse_line l with
                     | Some r => [r]
                     | None => []
                     end) lines.

Definition in_range (c : ascii) (r : ascii * ascii) : bool :=
  (nat_of_ascii (fst r) <=? nat_of_ascii c)
  && (nat_of_ascii c <=? nat_of_ascii (snd r)).

Definition glob_char (t : Glob) (c : ascii) : bool :=
  match t with
  | GChar x => Ascii.eqb x c
  | GAny => true
  | GStar => true
  | GClass neg rs => xorb neg (existsb (in_range c) rs)
  end.

(** Modelled from the spec: shell-glob matching of one path segment, which
    the imported library does and the sources do not hold. *)
Fixpoint glob (g : list Glob) (s : list ascii) : bool :=
  match g with
  | [] => match s with [] => true | _ => false end
  | GStar :: g' =>
      (fix star (s : list ascii) : bool :=
         glob g' s || match s with
                      | [] => false
                      | _ :: s' => star s'
                      end) s
  | t :: g' =>
      match s with
      | [] => false
      | c :: s' => glob_char t c && glob g' s'
      end
  end.

(** Modelled from the spec: matching a pattern against the segments of a
    path, [**] standing for any run of segments.  [end_ok] judges what is
    left of the path once the pattern is used up: nothing left means the
    file itself matched, something left means one of its directories did. *)
Fixpoint match_segs (end_ok : list (list ascii) -> bool) (ps : list Seg)
         (path : list (list ascii)) : bool :=
  match ps with
  | [] => end_ok path
  | SegGlob g :: ps' =>
      match path with
      | [] => false
      | s :: path' => glob g s && match_segs end_ok ps' path'
      end
  | SegDeep :: ps' =>
      (fix deep (path : list (list ascii)) : bool :=
         match_segs end_ok ps' path
         || match path with
            | [] => false
            | _ :: path' => deep path'
            end) path
  end.

Fixpoint match_any_depth (end_ok : list (list ascii) -> bool)
         (ps : list Seg) (path : list (list ascii)) : bool :=
  match_segs end_ok ps path
  || match path with
     | [] => false
     | _ :: path' => match_any_depth end_ok ps path'
     end.

Definition is_dot (s : list ascii) : bool :=
  match s with
  | [] => true
  | [c] => Ascii.eqb c "."
  | _ => false
  end.

(** Modelled from the spec: a path is matched by its segments; empty and
    [.] segments carry nothing. *)
Definition normalize_file (file : string) : list (list ascii) :=
  filter (fun s => negb (is_dot s))
         (split_on "/" [] (list_ascii_of_string file)).

(** Modelled from the spec: whether one rule matches a file path.  "A
    pattern without a leading [/] may match at any depth; a pattern with a
    leading [/] is anchored to the root." *)
Definition rule_hits (r : Rule) (file : string) : bool :=
  let end_ok := fun rest : list (list ascii) =>
    if dir_only r then match rest with [] => false | _ => true end
    else true in
  if anchored r then match_segs end_ok (segs r) (normalize_file file)
  else match_any_depth end_ok (segs r) (normalize_file file).

(** Modelled from the spec: [matches(path) -> bool], in the source
    [spec.match_file(file_path)].  It "evaluates rules in file order":
    every rule that matches overwrites the verdict of the rules before
    it. *)
Definition match_file (spec : PathSpec) (file : string) : bool :=
  fold_left (fun verdict r =>
               if rule_hits r file then negb (negated r) else verdict)
            spec false.

(** [bool(spec)] of a pattern set: it has a length. *)
Definition truthy (spec : PathSpec) : bool :=
  match spec with [] => false | _ => true end.

End PathSpec.

(** ** class CodebaseLister

    The fields as [__init__] leaves them: [output_filename] is the name
    given, or the time-stamped default. *)

Record CodebaseLister := mkLister {
  base_path : string;
  use_gitignore : bool;
  output_filename : string
}.

Definition string_of_chars (s : list ascii) : string :=
  string_of_list_ascii s.

(** The lines a text file hands to a [for] loop. *)
Definition file_lines (content : string) : list string :=
  map string_of_chars
      (PathSpec.split_on (ascii_of_nat 10) [] (list_ascii_of_string content)).

Definition load_gitignore (self : CodebaseLister) (w : World)
  : result (option PathSpec.PathSpec) :=
  try_except
    (content <- open_read w (os_path_join (base_path self) ".gitignore") ;;
     Return (Some (PathSpec.from_lines (file_lines content))))
    is_FileNotFoundError
    (fun _ => Return None).

(** [if spec and spec.match_file(file_path)]. *)
Definition skipped (spec : option PathSpec.PathSpec) (file_path : string)
  : bool :=
  match spec with
  | None => false
  | Some ps => PathSpec.truthy ps && PathSpec.match_file ps file_path
  end.

(** The two nested [for] loops of [list_files] over what [os.walk] gives. *)
Fixpoint files_loop (spec : option PathSpec.PathSpec) (root : string)
         (files : list string) : list string :=
  match files with
  | [] => []
  | file :: files' =>
      let file_path := os_path_join root file in
      if skipped spec file_path then files_loop spec root files'
      else file_path :: files_loop spec root files'
  end.

Fixpoint walk_loop (spec : option PathSpec.PathSpec)
         (triples : list (string * list string * list string))
  : list string :=
  match triples with
  | [] => []
  | (root, _, files) :: rest =>
      files_loop spec root files ++ walk_loop spec rest
  end.

(** [list_files] is a generator function: calling it makes a generator
    object, and whatever its body raises comes out of the loop that draws
    from it. *)
Definition list_files (self : CodebaseLister) (w : World) : Iterable :=
  match (if use_gitignore self then load_gitignore self w
         else Return None) with
  | Raise e => PyGenerator [] (Some e)
  | Return spec =>
      PyGenerator (walk_loop spec (os_walk w (base_path self))) None
  end.

Definition read_file_content (w : World) (file_path : string)
  : result string :=
  try_except
    (open_read w file_path)
    is_Exception
    (fun e => Return ("Error reading file: " ++ exn_str e)%string).

(** The loop of [_read_files_content] over the items drawn. *)
Fixpoint read_loop (self : CodebaseLister) (w : World) (paths : list string)
         (chars_count : nat) (contents : list string)
  : result (nat * list string) :=
  match paths with
  | [] => Return (chars_count, contents)
  | path :: rest =>
      if (path =? output_filename self)%string
      then read_loop self w rest chars_count contents
      else
        content <- read_file_content w path ;;
        read_loop self w rest (chars_count + String.length content)
                  (contents ++ [content])
  end.

Definition _read_files_content (self : CodebaseLister) (w : World)
           (file_paths : Iterable)
  : result (nat * list string) * Iterable :=
  let '(paths, fault, file_paths') := iterate file_paths in
  match read_loop self w paths 0 [] with
  | Raise e => (Raise e, file_paths')
  | Return r =>
      match fault with
      | Some e => (Raise e, file_paths')
      | None => (Return r, file_paths')
      end
  end.

(** What [outfile.write] is called with. *)
Inductive Write :=
| Header (path : string)
| Body (content : string).

Definition render (x : Write) : string :=
  match x with
  | Header path => "# " ++ path ++ ":" ++ nl
  | Body content => content ++ nl ++ nl
  end.

Definition text_of (written : list Write) : string :=
  String.concat "" (map render written).

(** The loop over [enumerate(file_paths)], with the writes made so far. *)
Fixpoint write_loop (self : CodebaseLister) (contents : list string)
         (idx : nat) (paths : list string) (written : list Write)
  : list Write * result unit :=
  match paths with
  | [] => (written, Return tt)
  | path :: rest =>
      if (path =? output_filename self)%string
      then write_loop self contents (S idx) rest written
      else
        let written1 := written ++ [Header path] in
        match nth_error contents idx with
        | None =>
            (written1, Raise (mkExn IndexError "list index out of range"))
        | Some content =>
            write_loop self contents (S idx) rest (written1 ++ [Body content])
        end
  end.

Record ListingResult := mkResult {
  res_output_filename : string;
  chars_count : nat;
  file_size : Q;
  files_count : nat
}.

(** A run: how it ends, and what the output file holds once it is closed
    ([None] when it was never opened). *)
Record Run := mkRun {
  outcome : result ListingResult;
  output_file : option (list Write)
}.

(** The bytes a character takes in the file: the text is written in UTF-8,
    a character being a code point below 256. *)
Definition char_bytes (c : ascii) : nat :=
  if nat_of_ascii c <? 128 then 1 else 2.

Fixpoint encoded_size (text : string) : nat :=
  match text with
  | EmptyString => 0
  | String c text' => char_bytes c + encoded_size text'
  end.

(** [os.path.getsize(self.output_filename) / 1024 / 1024]. *)
Definition getsize_mb (written : list Write) : Q :=
  (inject_Z (Z.of_nat (encoded_size (text_of written))) / 1024 / 1024)%Q.

(** The body of [generate_listing_file] once [file_paths] is bound. *)
Definition listing_of (self : CodebaseLister) (w : World)
           (file_paths : Iterable) : Run :=
  let '(r, file_paths1) := _read_files_content self w file_paths in
  match r with
  | Raise e => mkRun (Raise e) None
  | Return (chars, contents) =>
      match open_write w (output_filename self) with
      | Some e => mkRun (Raise e) None
      | None =>
          let '(paths, fault, file_paths2) := iterate file_paths1 in
          let '(written, r2) := write_loop self contents 0 paths [] in
          match r2, fault with
          | Raise e, _ => mkRun (Raise e) (Some written)
          | Return _, Some e => mkRun (Raise e) (Some written)
          | Return _, None =>
              mkRun (n <- py_len file_paths2 ;;
                     Return (mkResult (output_filename self) chars
                                      (getsize_mb written) n))
                    (Some written)
          end
      end
  end.

Definition generate_listing_file (self : CodebaseLister) (w : World) : Run :=
  listing_of self w (list_files self w).

(** ** Reference notions the properties are stated with *)

(** Every regular file under [top], parents before children, each
    directory's children in the order the tree holds them. *)
Fixpoint tree_files (top : string) (d : Dir) : list string :=
  match d with
  | MkDir files subdirs =>
      map (fun f => os_path_join top (fst f)) files ++ dirs_files top subdirs
  end
with dirs_files (top : string) (ds : Dirs) : list string :=
  match ds with
  | DNil => []
  | DCons name d rest =>
      tree_files (os_path_join top name) d ++ dirs_files top rest
  end.

Definition regular_files (w : World) (top : string) : list string :=
  match stat w top with
  | Some (EDir d) => tree_files top d
  | _ => []
  end.

Definition is_output (self : CodebaseLister) (path : string) : bool :=
  (path =? output_filename self)%string.

(** The text that stands for a file: what was read, or the diagnostic. *)
Definition body_of (w : World) (path : string) : string :=
  match open_read w path with
  | Return content => content
  | Raise e => ("Error reading file: " ++ exn_str e)%string
  end.

Definition bodies (self : CodebaseLister) (w : World) (paths : list string)
  : list string :=
  map (body_of w) (filter (fun p => negb (is_output self p)) paths).

Definition total_length (l : list string) : nat :=
  fold_right (fun s n => String.length s + n) 0 l.

Fixpoint written_bodies (written : list Write) : list string :=
  match written with
  | [] => []
  | Header _ :: rest => written_bodies rest
  | Body c :: rest => c :: written_bodies rest
  end.

Definition no_len : Exn :=
  mkExn TypeError "object of type 'generator' has no len()".

(** ** The constructor *)

Record datetime := mkDatetime {
  year : nat;
  month : nat;
  day : nat;
  hour : nat;
  minute : nat;
  second : nat
}.

Definition digit (d : nat) : ascii := ascii_of_nat (48 + d).

(** The last [width] decimal digits of [n], zeros in front: what [%m], [%d],
    [%H], [%M], [%S] give for their two digits and [%Y] for the four of a
    year from 1000 on. *)
Fixpoint zero_padded (width n : nat) : list ascii :=
  match width with
  | 0 => []
  | S width' => zero_padded width' (n / 10) ++ [digit (n mod 10)]
  end.

(** [now.strftime('%Y%m%d_%H%M%S')]. *)
Definition strftime (now : datetime) : list ascii :=
  zero_padded 4 (year now) ++ zero_padded 2 (month now)
  ++ zero_padded 2 (day now) ++ ["_"%char]
  ++ zero_padded 2 (hour now) ++ zero_padded 2 (minute now)
  ++ zero_padded 2 (second now).

Definition default_output_filename (now : datetime) : string :=
  ("listing_" ++ string_of_list_ascii (strftime now) ++ ".txt")%string.

(** [__init__], with [now] what [datetime.now()] gives when it runs.
    [output_filename or ...] takes the default for [None] and for the empty
    string alike. *)
Definition __init__ (base_path : string) (use_gitignore : bool)
           (output_filename : option string) (now : datetime)
  : CodebaseLister :=
  mkLister base_path use_gitignore
           (match output_filename with
            | Some name =>
                if (name =? "")%string then default_output_filename now
                else name
            | None => default_output_filename now
            end).

Definition valid_datetime (now : datetime) : bool :=
  (1000 <=? year now) && (year now <? 10 * 1000)
  && (month now <? 100) && (day now <? 100)
  && (hour now <? 100) && (minute now <? 100) && (second now <? 100).

(** ** Further notions the properties are stated with *)

(** No name in the tree begins with a slash. *)
Fixpoint names_ok (d : Dir) : bool :=
  match d with
  | MkDir files subdirs =>
      forallb (fun f => negb (starts_with_sep (fst f))) files
      && dirs_names_ok subdirs
  end
with dirs_names_ok (ds : Dirs) : bool :=
  match ds with
  | DNil => true
  | DCons name d rest =>
      negb (starts_with_sep name) && names_ok d && dirs_names_ok rest
  end.

(** One header and one body for every path, in order. *)
Definition blocks (w : World) (paths : list string) : list Write :=
  flat_map (fun p => [Header p; Body (body_of w p)]) paths.

(** Some path other than the output file comes after the output file. *)
Fixpoint follows_output (self : CodebaseLister) (paths : list string) : bool :=
  match paths with
  | [] => false
  | p :: rest =>
      if is_output self p
      then existsb (fun q => negb (is_output self q)) rest
      else follows_output self rest
  end.

Definition index_error : Exn := mkExn IndexError "list index out of range".

(** The rules [list_files] works with: those [load_gitignore] gives, or none
    when [use_gitignore] is off. *)
Definition rules_in_force (self : CodebaseLister) (w : World)
  : result (option PathSpec.PathSpec) :=
  if use_gitignore self then load_gitignore self w else Return None.


(** The paths a generator has still to hand out. *)
Definition yielded (it : Iterable) : list string := fst (fst (iterate it)).

(** Two trees with the same entries, each directory's children possibly
    reported in another order. *)
Inductive same_entries : Dir -> Dir -> Prop :=
| same_dir files files' subdirs subdirs' :
    Permutation files files' ->
    same_subdirs subdirs subdirs' ->
    same_entries (MkDir files subdirs) (MkDir files' subdirs')
with same_subdirs : Dirs -> Dirs -> Prop :=
| same_nil : same_subdirs DNil DNil
| same_skip name d d' rest rest' :
    same_entries d d' ->
    same_subdirs rest rest' ->
    same_subdirs (DCons name d rest) (DCons name d' rest')
| same_swap name1 d1 name2 d2 rest :
    same_subdirs (DCons name1 d1 (DCons name2 d2 rest))
                 (DCons name2 d2 (DCons name1 d1 rest))
| same_trans ds1 ds2 ds3 :
    same_subdirs ds1 ds2 -> same_subdirs ds2 ds3 -> same_subdirs ds1 ds3.

Fixpoint ascii_only (text : string) : bool :=
  match text with
  | EmptyString => true
  | String c text' => (nat_of_ascii c <? 128) && ascii_only text'
  end.

(** Headers and bodies taken pairwise from two lists. *)
Definition paired (paths contents : list string) : list Write :=
  flat_map (fun pc => [Header (fst pc); Body (snd pc)])
           (combine paths contents).

(** How many of the paths are not the output file. *)
Definition others (self : CodebaseLister) (paths : list string) : nat :=
  List.length (filter (fun p => negb (is_output self p)) paths).

(** The number a string of decimal digits stands for. *)
Definition value (s : list ascii) : nat :=
  fold_left (fun a c => 10 * a + (nat_of_ascii c - 48)) s 0.

(** No output name given: [None], or the empty string. *)
Definition absent (output_filename : option string) : bool :=
  match output_filename with
  | Some name => (name =? "")%string
  | None => true
  end.

(** ** Sample trees *)

Module Samples.

Definition denied (path : string) : Exn :=
  mkExn PermissionError ("[Errno 13] Permission denied: '" ++ path ++ "'").

(** [a.txt] alone. *)
Definition one_file : World :=
  mkWorld "/proj" (MkDir [("a.txt", Regular "hello")] DNil) [].

(** Two files and a subdirectory with a third. *)
Definition three_files : World :=
  mkWorld "/proj"
          (MkDir [("a.txt", Regular "hello"); ("b.txt", Regular "world")]
                 (DCons "src" (MkDir [("m.py", Regular "pass")] DNil) DNil))
          [].

(** [a.txt] ("hello"), [b.log], and a [.gitignore] holding [*.log]. *)
Definition scenario : World :=
  mkWorld "/proj"
          (MkDir [("a.txt", Regular "hello");
                  ("b.log", Regular "started");
                  (".gitignore", Regular "*.log")] DNil)
          [].

(** A tree with an unreadable file and an earlier listing in it. *)
Definition locked : World :=
  mkWorld "/proj"
          (MkDir [("a.txt", Regular "hello");
                  ("out.txt", Regular "# old listing");
                  ("locked.bin", Unreadable (denied "/proj/locked.bin"));
                  ("z.txt", Regular "end")] DNil)
          [].

Definition lister : CodebaseLister := mkLister "/proj" true "out.txt".

Definition plain_lister : CodebaseLister := mkLister "/proj" false "out.txt".

Definition inner_lister : CodebaseLister :=
  mkLister "/proj" true "/proj/out.txt".

Definition log_rules : PathSpec.PathSpec :=
  PathSpec.from_lines ["*.log"; "!keep.log"].

(** A tree whose [.gitignore] cannot be read. *)
Definition sealed_rules : World :=
  mkWorld "/proj"
          (MkDir [("a.txt", Regular "hello");
                  (".gitignore", Unreadable (denied "/proj/.gitignore"))]
                 DNil)
          [].

(** [a.txt] alone, and an output path that cannot be opened for writing. *)
Definition read_only : World :=
  mkWorld "/proj" (MkDir [("a.txt", Regular "hello")] DNil) ["out.txt"].

(** A tree with a file that cannot be read between two that can. *)
Definition unreadable : World :=
  mkWorld "/proj"
          (MkDir [("a.txt", Regular "hello");
                  ("locked.bin", Unreadable (denied "/proj/locked.bin"));
                  ("z.txt", Regular "end")] DNil)
          [].



Definition noon : datetime := mkDatetime 2024 3 9 12 0 5.

Definition later : datetime := mkDatetime 2024 3 9 12 0 6.

End Samples.

(** * Properties *)

(** ** Results and iterables *)

Lemma bind_Return {A B} (a : A) (k : A -> result B) :
  bind (Return a) k = k a.
Proof. reflexivity. Qed.

Lemma iterate_generator_twice (pending : list string) (fault : option Exn) :
  iterate (snd (iterate (PyGenerator pending fault))) =
  ([], None, PyGenerator [] None).
Proof. reflexivity. Qed.

Lemma iterate_list_twice (items : list string) :
  iterate (snd (iterate (PyList items))) = (items, None, PyList items).
Proof. reflexivity. Qed.

(** ** The walk *)

Scheme Dir_mut := Induction for Dir Sort Prop
  with Dirs_mut := Induction for Dirs Sort Prop.
Combined Scheme Dir_Dirs_ind from Dir_mut, Dirs_mut.

Lemma walk_loop_app spec a b :
  walk_loop spec (a ++ b) = walk_loop spec a ++ walk_loop spec b.
Proof.
  induction a as [|[[root dirs] files] a IH]; simpl.
  - reflexivity.
  - now rewrite IH, app_assoc.
Qed.

Lemma files_loop_filter spec root (files : list (string * FileNode)) :
  files_loop spec root (map fst files) =
  filter (fun p => negb (skipped spec p))
         (map (fun f => os_path_join root (fst f)) files).
Proof.
  induction files as [|f files IH]; simpl.
  - reflexivity.
  - destruct (skipped spec (os_path_join root (fst f))); simpl;
      now rewrite IH.
Qed.

Lemma walk_loop_tree spec :
  (forall d top,
      walk_loop spec (walk top d) =
      filter (fun p => negb (skipped spec p)) (tree_files top d))
  /\ (forall ds top,
         walk_loop spec (walk_dirs top ds) =
         filter (fun p => negb (skipped spec p)) (dirs_files top ds)).
Proof.
  apply Dir_Dirs_ind.
  - intros files subdirs IH top. simpl.
    now rewrite filter_app, files_loop_filter, IH.
  - reflexivity.
  - intros name d IHd rest IHrest top. simpl.
    now rewrite walk_loop_app, filter_app, IHd, IHrest.
Qed.

Lemma walk_loop_os_walk spec w top :
  walk_loop spec (os_walk w top) =
  filter (fun p => negb (skipped spec p)) (regular_files w top).
Proof.
  unfold os_walk, regular_files.
  destruct (stat w top) as [[f|d]|]; try reflexivity.
  apply walk_loop_tree.
Qed.

Lemma filter_all {A} (f : A -> bool) (l : list A) :
  (forall x, f x = true) -> filter f l = l.
Proof.
  intros H. induction l as [|x l IH]; simpl.
  - reflexivity.
  - now rewrite H, IH.
Qed.

Lemma walk_loop_None w top :
  walk_loop None (os_walk w top) = regular_files w top.
Proof.
  rewrite walk_loop_os_walk. now apply filter_all.
Qed.

(** ** Reading *)

Lemma read_file_content_body w path :
  read_file_content w path = Return (body_of w path).
Proof.
  unfold read_file_content, body_of, try_except.
  destruct (open_read w path) as [c|e].
  - reflexivity.
  - now destruct (exn_class e).
Qed.

Lemma total_length_cons s l :
  total_length (s :: l) = String.length s + total_length l.
Proof. reflexivity. Qed.

Lemma total_length_app a b :
  total_length (a ++ b) = total_length a + total_length b.
Proof.
  induction a as [|s a IH]; simpl.
  - reflexivity.
  - rewrite IH. lia.
Qed.

Lemma read_loop_bodies self w paths : forall n cs,
  read_loop self w paths n cs =
  Return (n + total_length (bodies self w paths), cs ++ bodies self w paths).
Proof.
  induction paths as [|p paths IH]; intros n cs; simpl.
  - unfold bodies. simpl. now rewrite Nat.add_0_r, app_nil_r.
  - unfold bodies, is_output in *. simpl.
    destruct (p =? output_filename self)%string; simpl.
    + apply IH.
    + rewrite read_file_content_body, bind_Return, IH.
      now rewrite <- app_assoc, Nat.add_assoc.
Qed.

Lemma read_files_content_generator self w paths :
  _read_files_content self w (PyGenerator paths None) =
  (Return (total_length (bodies self w paths), bodies self w paths),
   PyGenerator [] None).
Proof.
  unfold _read_files_content. simpl. now rewrite read_loop_bodies.
Qed.

Lemma read_files_content_list self w paths :
  _read_files_content self w (PyList paths) =
  (Return (total_length (bodies self w paths), bodies self w paths),
   PyList paths).
Proof.
  unfold _read_files_content. simpl. now rewrite read_loop_bodies.
Qed.

(** ** Writing *)



(** ** The run as a whole *)

(** The generator [list_files] returns is drawn dry by
    [_read_files_content]; the loop over [enumerate(file_paths)] then gets
    nothing, and [len(file_paths)] raises. *)
Lemma generate_listing_file_raises self w :
  exists e, outcome (generate_listing_file self w) = Raise e.
Proof.
  unfold generate_listing_file, listing_of, list_files.
  destruct (if use_gitignore self then load_gitignore self w else Return None)
    as [spec|e].
  - rewrite read_files_content_generator.
    destruct (open_write w (output_filename self)) as [e|]; simpl.
    + now exists e.
    + now exists no_len.
  - unfold _read_files_content. simpl. now exists e.
Qed.

Lemma generate_listing_file_writes_nothing self w :
  output_file (generate_listing_file self w) = None
  \/ output_file (generate_listing_file self w) = Some [].
Proof.
  unfold generate_listing_file, listing_of, list_files.
  destruct (if use_gitignore self then load_gitignore self w else Return None)
    as [spec|e].
  - rewrite read_files_content_generator.
    destruct (open_write w (output_filename self)) as [e|]; simpl.
    + now left.
    + now right.
  - unfold _read_files_content. simpl. now left.
Qed.

(** ** Pattern sets *)

Section Verdict.

Import PathSpec.

Variable file : string.

Let step (verdict : bool) (r : Rule) : bool :=
  if rule_hits r file then negb (negated r) else verdict.

Lemma verdict_kept (after : list Rule) : forall v,
  (forall r, In r after -> rule_hits r file = false) ->
  fold_left step after v = v.
Proof.
  induction after as [|r after IH]; intros v H; simpl.
  - reflexivity.
  - rewrite IH.
    + unfold step. now rewrite (H r (or_introl eq_refl)).
    + intros r' Hr'. apply H. now right.
Qed.

Lemma verdict_of_last_hit (before after : list Rule) (r : Rule) :
  rule_hits r file = true ->
  (forall r', In r' after -> rule_hits r' file = false) ->
  match_file (before ++ r :: after) file = negb (negated r).
Proof.
  intros Hr Hafter. unfold match_file.
  rewrite fold_left_app. simpl.
  change (fold_left step after (step (fold_left step before false) r)
          = negb (negated r)).
  rewrite verdict_kept by exact Hafter.
  unfold step. now rewrite Hr.
Qed.

Lemma verdict_without_hit (spec : PathSpec) :
  (forall r, In r spec -> rule_hits r file = false) ->
  match_file spec file = false.
Proof.
  intros H. unfold match_file. now apply verdict_kept.
Qed.

End Verdict.

(** * The claims *)

(** C1. Ignore matching is last-match-wins.  A path that no rule matches is
    not excluded.  When some rule matches, the last rule in file order that
    does decides: the path is excluded unless that rule is a negation.  The
    check [list_files] makes is this verdict.  For the rules [*.log] and
    [!keep.log], [keep.log] is included and [other.log] is excluded. *)
Theorem match_file_last_match_wins :
  (forall spec file,
      (forall r, In r spec -> PathSpec.rule_hits r file = false) ->
      PathSpec.match_file spec file = false)
  /\ (forall before r after file,
         PathSpec.rule_hits r file = true ->
         (forall r', In r' after -> PathSpec.rule_hits r' file = false) ->
         PathSpec.match_file (before ++ r :: after) file
         = negb (PathSpec.negated r))
  /\ (forall spec file_path,
         skipped (Some spec) file_path = PathSpec.match_file spec file_path)
  /\ PathSpec.match_file Samples.log_rules "keep.log" = false
  /\ PathSpec.match_file Samples.log_rules "other.log" = true
  /\ PathSpec.match_file Samples.log_rules "/proj/keep.log" = false
  /\ PathSpec.match_file Samples.log_rules "/proj/other.log" = true.
Proof.
  split; [|split; [|split]].
  - intros spec file. apply verdict_without_hit.
  - intros before r after file. apply verdict_of_last_hit.
  - intros [|r spec] file_path; reflexivity.
  - repeat split; vm_compute; reflexivity.
Qed.

Lemma match_file_last_match_wins_witness :
  PathSpec.rule_hits (PathSpec.mkRule true false false
                        [PathSpec.seg_of (list_ascii_of_string "keep.log")])
                     "keep.log" = true
  /\ PathSpec.match_file Samples.log_rules "keep.log" = negb true.
Proof.
  split.
  - vm_compute. reflexivity.
  - apply (proj1 (proj2 match_file_last_match_wins)
             [PathSpec.mkRule false false false
                [PathSpec.seg_of (list_ascii_of_string "*.log")]]
             (PathSpec.mkRule true false false
                [PathSpec.seg_of (list_ascii_of_string "keep.log")])
             [] "keep.log").
    + vm_compute. reflexivity.
    + intros r' [].
Defined.

(** C2. Where the run departs from the claim: for a tree holding [a.txt]
    with the text [hello], the character total the run computes is 5, the
    output file is left with no content string in it, and the run ends in a
    [TypeError] instead of a result.  No run returns a result at all. *)
Theorem chars_count_of_unwritten_content :
  fst (_read_files_content Samples.lister Samples.one_file
         (list_files Samples.lister Samples.one_file))
  = Return (5, ["hello"])
  /\ generate_listing_file Samples.lister Samples.one_file
     = mkRun (Raise no_len) (Some [])
  /\ total_length (written_bodies []) <> 5
  /\ (forall self w,
         exists e, outcome (generate_listing_file self w) = Raise e).
Proof.
  repeat split.
  - discriminate.
  - apply generate_listing_file_raises.
Qed.

(** In [_read_files_content] a read that fails does not stop the pass over
    the paths.  The text kept for that path is ["Error reading file: "]
    followed by the cause, its length goes into the character total like
    the length of any content read, and the paths before and after it are
    handled as usual. *)
Theorem failed_read_becomes_diagnostic :
  forall self w path e before after,
    open_read w path = Raise e ->
    is_output self path = false ->
    let diagnostic := ("Error reading file: " ++ exn_str e)%string in
    read_file_content w path = Return diagnostic
    /\ _read_files_content self w (PyGenerator (before ++ path :: after) None)
       = (Return (total_length (bodies self w before)
                  + String.length diagnostic
                  + total_length (bodies self w after),
                  bodies self w before ++ diagnostic :: bodies self w after),
          PyGenerator [] None).
Proof.
  intros self w path e before after Hread Hout diagnostic.
  assert (Hbody : body_of w path = diagnostic).
  { unfold body_of. now rewrite Hread. }
  split.
  - now rewrite read_file_content_body, Hbody.
  - rewrite read_files_content_generator.
    assert (Hb : bodies self w (before ++ path :: after)
                 = bodies self w before ++ diagnostic :: bodies self w after).
    { unfold bodies. rewrite filter_app. simpl. rewrite Hout. simpl.
      now rewrite map_app, <- Hbody. }
    rewrite Hb, total_length_app, total_length_cons.
    now rewrite Nat.add_assoc.
Qed.

Lemma failed_read_becomes_diagnostic_witness :
  open_read Samples.locked "/proj/locked.bin"
  = Raise (Samples.denied "/proj/locked.bin")
  /\ _read_files_content Samples.lister Samples.locked
       (PyGenerator ["/proj/a.txt"; "/proj/locked.bin"; "/proj/z.txt"] None)
     = (Return
          (5 + 68 + 3,
           ["hello";
            "Error reading file: [Errno 13] Permission denied: '/proj/locked.bin'";
            "end"]),
        PyGenerator [] None).
Proof.
  split.
  - reflexivity.
  - exact (proj2 (failed_read_becomes_diagnostic Samples.lister Samples.locked
                    "/proj/locked.bin" (Samples.denied "/proj/locked.bin")
                    ["/proj/a.txt"] ["/proj/z.txt"] eq_refl eq_refl)).
Defined.

(** C6. Where the run departs from the claim: for a tree with three files,
    none of them ignored, the walker yields three paths, and the output file
    is left empty: no block is written for any of them.  No run writes a
    block. *)
Theorem listing_holds_no_block :
  fst (fst (iterate (list_files Samples.lister Samples.three_files)))
  = ["/proj/a.txt"; "/proj/b.txt"; "/proj/src/m.py"]
  /\ output_file (generate_listing_file Samples.lister Samples.three_files)
     = Some []
  /\ text_of [] = ""
  /\ outcome (generate_listing_file Samples.lister Samples.three_files)
     = Raise no_len
  /\ (forall self w,
         output_file (generate_listing_file self w) = None
         \/ output_file (generate_listing_file self w) = Some []).
Proof.
  repeat split. apply generate_listing_file_writes_nothing.
Qed.

(** C7. With no [.gitignore] at the base path, [load_gitignore] raises
    nothing and gives no pattern set, no path is skipped, and [list_files]
    yields every regular file under the base path. *)
Theorem missing_gitignore_includes_all :
  forall self w,
    stat w (os_path_join (base_path self) ".gitignore") = None ->
    load_gitignore self w = Return None
    /\ (forall file_path, skipped None file_path = false)
    /\ list_files self w
       = PyGenerator (regular_files w (base_path self)) None.
Proof.
  intros self w Habsent.
  assert (Hload : load_gitignore self w = Return None).
  { unfold load_gitignore, open_read. now rewrite Habsent. }
  split; [exact Hload|split; [reflexivity|]].
  unfold list_files. rewrite Hload.
  destruct (use_gitignore self); now rewrite walk_loop_None.
Qed.

Lemma missing_gitignore_includes_all_witness :
  stat Samples.three_files "/proj/.gitignore" = None
  /\ list_files Samples.lister Samples.three_files
     = PyGenerator ["/proj/a.txt"; "/proj/b.txt"; "/proj/src/m.py"] None.
Proof.
  split.
  - reflexivity.
  - apply (proj2 (proj2 (missing_gitignore_includes_all
                           Samples.lister Samples.three_files eq_refl))).
Defined.

(** C9. With [use_gitignore=False] nothing is filtered: [list_files] yields
    every regular file under the base path and never opens [.gitignore],
    whatever rules it holds. *)
Theorem no_gitignore_no_filtering :
  forall self w,
    use_gitignore self = false ->
    list_files self w = PyGenerator (regular_files w (base_path self)) None.
Proof.
  intros self w Hoff. unfold list_files. rewrite Hoff.
  now rewrite walk_loop_None.
Qed.

Lemma no_gitignore_no_filtering_witness :
  PathSpec.match_file (PathSpec.from_lines (file_lines "*.log"))
                      "/proj/b.log" = true
  /\ list_files Samples.plain_lister Samples.scenario
     = PyGenerator ["/proj/a.txt"; "/proj/b.log"; "/proj/.gitignore"] None.
Proof.
  split.
  - vm_compute. reflexivity.
  - apply (no_gitignore_no_filtering Samples.plain_lister Samples.scenario).
    reflexivity.
Defined.

(** C10. [read_file_content] always returns a string and raises nothing:
    the string is the content read, or, when opening or reading raised,
    ["Error reading file: "] followed by the text of the exception. *)
Theorem read_file_content_total :
  forall w file_path,
    exists s,
      read_file_content w file_path = Return s
      /\ (open_read w file_path = Return s
          \/ exists e,
               open_read w file_path = Raise e
               /\ s = ("Error reading file: " ++ exn_str e)%string
               /\ String.prefix "Error reading file: " s = true).
Proof.
  intros w file_path. exists (body_of w file_path).
  split.
  - apply read_file_content_body.
  - unfold body_of. destruct (open_read w file_path) as [c|e].
    + now left.
    + right. exists e. split; [reflexivity|split; [reflexivity|]].
      destruct (exn_str e); reflexivity.
Qed.

(** * Further properties of the code *)

(** ** How a run ends *)

(** [load_gitignore] lets through whatever is not [FileNotFoundError]; the
    exception then leaves the generator at the first item asked of it, in
    [_read_files_content], and the run ends with it before the output file
    is opened. *)
Theorem unreadable_gitignore_ends_run :
  forall self w e,
    use_gitignore self = true ->
    open_read w (os_path_join (base_path self) ".gitignore") = Raise e ->
    is_FileNotFoundError (exn_class e) = false ->
    load_gitignore self w = Raise e
    /\ list_files self w = PyGenerator [] (Some e)
    /\ generate_listing_file self w = mkRun (Raise e) None.
Proof.
  intros self w e Hon Hread Hclass.
  assert (Hload : load_gitignore self w = Raise e).
  { unfold load_gitignore, try_except. rewrite Hread. simpl.
    now rewrite Hclass. }
  assert (Hgen : list_files self w = PyGenerator [] (Some e)).
  { unfold list_files. now rewrite Hon, Hload. }
  repeat split; try assumption.
  unfold generate_listing_file. now rewrite Hgen.
Qed.

Lemma unreadable_gitignore_ends_run_witness :
  open_read Samples.sealed_rules "/proj/.gitignore"
  = Raise (Samples.denied "/proj/.gitignore")
  /\ generate_listing_file Samples.lister Samples.sealed_rules
     = mkRun (Raise (Samples.denied "/proj/.gitignore")) None.
Proof.
  split.
  - reflexivity.
  - apply (proj2 (proj2 (unreadable_gitignore_ends_run
                           Samples.lister Samples.sealed_rules
                           (Samples.denied "/proj/.gitignore")
                           eq_refl eq_refl eq_refl))).
Defined.

(** When the walk itself raises nothing, every file is read first; then
    the run ends with the exception of [open(output_filename, 'w')] if that
    raises, and otherwise with the [TypeError] of [len(file_paths)], the
    output file opened and left empty. *)
Theorem run_after_walk :
  forall self w paths,
    list_files self w = PyGenerator paths None ->
    fst (_read_files_content self w (list_files self w))
    = Return (total_length (bodies self w paths), bodies self w paths)
    /\ generate_listing_file self w
       = match open_write w (output_filename self) with
         | Some e => mkRun (Raise e) None
         | None => mkRun (Raise no_len) (Some [])
         end.
Proof.
  intros self w paths Hgen.
  unfold generate_listing_file, listing_of.
  rewrite Hgen, read_files_content_generator. simpl.
  split; [reflexivity|].
  now destruct (open_write w (output_filename self)).
Qed.

Lemma run_after_walk_witness :
  list_files Samples.lister Samples.read_only
  = PyGenerator ["/proj/a.txt"] None
  /\ generate_listing_file Samples.lister Samples.read_only
     = mkRun (Raise (Samples.denied "out.txt")) None.
Proof.
  split.
  - reflexivity.
  - apply (proj2 (run_after_walk Samples.lister Samples.read_only
                    ["/proj/a.txt"] eq_refl)).
Defined.

(** ** The two loops on a list of paths *)

Lemma nth_error_skipn_cons {A} (l : list A) : forall idx,
  idx < List.length l ->
  exists x, nth_error l idx = Some x /\ skipn idx l = x :: skipn (S idx) l.
Proof.
  induction l as [|a l IH]; intros idx Hlt; simpl in Hlt.
  - lia.
  - destruct idx as [|idx].
    + exists a. now split.
    + destruct (IH idx) as [x [Hn Hs]]; [lia|].
      exists x. split; [exact Hn|]. simpl in *. exact Hs.
Qed.

Lemma write_loop_paired self contents paths : forall idx written,
  (forall p, In p paths -> is_output self p = false) ->
  idx + List.length paths <= List.length contents ->
  write_loop self contents idx paths written
  = (written ++ paired paths (skipn idx contents), Return tt).
Proof.
  induction paths as [|p paths IH]; intros idx written Hno Hlen; simpl.
  - unfold paired. simpl. now rewrite app_nil_r.
  - assert (Hp : is_output self p = false) by (apply Hno; now left).
    unfold is_output in Hp. rewrite Hp.
    simpl in Hlen.
    destruct (nth_error_skipn_cons contents idx) as [c [Hn Hs]]; [lia|].
    rewrite Hn, IH.
    + rewrite Hs. unfold paired. simpl.
      now rewrite <- !app_assoc.
    + intros q Hq. apply Hno. now right.
    + lia.
Qed.

Lemma paired_bodies w (paths : list string) :
  paired paths (map (body_of w) paths) = blocks w paths.
Proof.
  unfold paired, blocks.
  induction paths as [|p paths IH]; simpl.
  - reflexivity.
  - now rewrite IH.
Qed.

Lemma bodies_without_output self w paths :
  (forall p, In p paths -> is_output self p = false) ->
  bodies self w paths = map (body_of w) paths.
Proof.
  intros Hno. unfold bodies. f_equal.
  induction paths as [|p paths IH]; simpl.
  - reflexivity.
  - rewrite (Hno p (or_introl eq_refl)). simpl. f_equal.
    apply IH. intros q Hq. apply Hno. now right.
Qed.

Lemma listing_of_list_run self w paths :
  (forall p, In p paths -> is_output self p = false) ->
  open_write w (output_filename self) = None ->
  listing_of self w (PyList paths)
  = mkRun (Return (mkResult (output_filename self)
                            (total_length (map (body_of w) paths))
                            (getsize_mb (blocks w paths))
                            (List.length paths)))
          (Some (blocks w paths)).
Proof.
  intros Hno Hopen.
  unfold listing_of.
  rewrite read_files_content_list, Hopen. simpl.
  rewrite write_loop_paired.
  - simpl. rewrite (bodies_without_output self w paths Hno).
    now rewrite paired_bodies.
  - exact Hno.
  - rewrite (bodies_without_output self w paths Hno), length_map. lia.
Qed.

(** Run on a list of paths none of which is the output file, the
    statements of [generate_listing_file] after its first return a result:
    [chars_count] is the total length of the texts kept, [files_count] the
    number of paths, and the output file holds one header and one body for
    every path, in the order of the list. *)
Theorem listing_of_list :
  forall self w paths,
    (forall p, In p paths -> is_output self p = false) ->
    open_write w (output_filename self) = None ->
    listing_of self w (PyList paths)
    = mkRun (Return (mkResult (output_filename self)
                              (total_length (map (body_of w) paths))
                              (getsize_mb (blocks w paths))
                              (List.length paths)))
            (Some (blocks w paths)).
Proof.
  intros self w paths. apply listing_of_list_run.
Qed.

Lemma listing_of_list_witness :
  output_file (listing_of Samples.lister Samples.locked
                 (PyList ["/proj/a.txt"; "/proj/locked.bin"]))
  = Some [Header "/proj/a.txt"; Body "hello";
          Header "/proj/locked.bin";
          Body "Error reading file: [Errno 13] Permission denied: '/proj/locked.bin'"]
  /\ outcome (listing_of Samples.lister Samples.locked
                (PyList ["/proj/a.txt"; "/proj/locked.bin"]))
     = Return (mkResult "out.txt" 73
                 (getsize_mb (blocks Samples.locked
                                ["/proj/a.txt"; "/proj/locked.bin"]))
                 2).
Proof.
  assert (H := listing_of_list Samples.lister Samples.locked
                 ["/proj/a.txt"; "/proj/locked.bin"]).
  split.
  - rewrite H; [reflexivity| |reflexivity].
    intros p [<-|[<-|[]]]; reflexivity.
  - rewrite H; [reflexivity| |reflexivity].
    intros p [<-|[<-|[]]]; reflexivity.
Defined.

Lemma write_loop_runs_out self contents paths : forall idx written,
  1 <= others self paths ->
  List.length contents < idx + others self paths ->
  exists written',
    write_loop self contents idx paths written = (written', Raise index_error).
Proof.
  unfold others.
  induction paths as [|p paths IH]; intros idx written Hone Hlen; simpl in *.
  - lia.
  - unfold is_output in *.
    destruct (p =? output_filename self)%string; simpl in *.
    + apply IH; lia.
    + destruct (nth_error contents idx) as [c|] eqn:Hn.
      * assert (Hidx : idx < List.length contents).
        { apply nth_error_Some. now rewrite Hn. }
        apply IH; lia.
      * now eexists.
Qed.

Lemma existsb_others self paths :
  existsb (fun q => negb (is_output self q)) paths = true ->
  1 <= others self paths.
Proof.
  unfold others. induction paths as [|p paths IH]; simpl.
  - discriminate.
  - destruct (is_output self p); simpl; [exact IH|lia].
Qed.

Lemma write_loop_shifted self contents paths : forall idx written,
  follows_output self paths = true ->
  List.length contents <= idx + others self paths ->
  exists written',
    write_loop self contents idx paths written = (written', Raise index_error).
Proof.
  induction paths as [|p paths IH]; intros idx written Hfo Hlen; simpl in *.
  - discriminate.
  - unfold others in Hlen. simpl in Hlen. unfold is_output in *.
    destruct (p =? output_filename self)%string; simpl in *.
    + apply write_loop_runs_out.
      * now apply existsb_others.
      * unfold others, is_output. lia.
    + destruct (nth_error contents idx) as [c|] eqn:Hn.
      * apply IH; [exact Hfo|]. unfold others, is_output. lia.
      * now eexists.
Qed.

(** Run on a list in which the output file is followed by another path, the
    same statements end in an [IndexError]: the write loop looks up
    [contents] by the position among all the paths, and [contents] has no
    entry for the output file. *)
Theorem listing_of_list_index_error :
  forall self w paths,
    follows_output self paths = true ->
    open_write w (output_filename self) = None ->
    exists written,
      listing_of self w (PyList paths)
      = mkRun (Raise index_error) (Some written).
Proof.
  intros self w paths Hfo Hopen.
  unfold listing_of.
  rewrite read_files_content_list, Hopen. simpl.
  destruct (write_loop_shifted self (bodies self w paths) paths 0 [] Hfo)
    as [written Hw].
  - unfold bodies, others. rewrite length_map. simpl. lia.
  - rewrite Hw. now exists written.
Qed.

Lemma listing_of_list_index_error_witness :
  follows_output Samples.inner_lister
    ["/proj/a.txt"; "/proj/out.txt"; "/proj/z.txt"] = true
  /\ exists written,
       listing_of Samples.inner_lister Samples.locked
         (PyList ["/proj/a.txt"; "/proj/out.txt"; "/proj/z.txt"])
       = mkRun (Raise index_error) (Some written).
Proof.
  split.
  - reflexivity.
  - apply (listing_of_list_index_error Samples.inner_lister Samples.locked
             ["/proj/a.txt"; "/proj/out.txt"; "/proj/z.txt"]); reflexivity.
Defined.

(** ** The size of what is written *)

Lemma length_append (a b : string) :
  String.length (a ++ b) = String.length a + String.length b.
Proof.
  induction a as [|c a IH]; simpl.
  - reflexivity.
  - now rewrite IH.
Qed.

Lemma length_concat_empty (l : list string) :
  String.length (String.concat "" l) = total_length l.
Proof.
  induction l as [|x l IH].
  - reflexivity.
  - destruct l as [|y l].
    + simpl. lia.
    + change (String.concat "" (x :: y :: l))
        with (x ++ "" ++ String.concat "" (y :: l))%string.
      rewrite !length_append, IH, !total_length_cons. simpl. lia.
Qed.

Lemma length_text_of_blocks w (paths : list string) :
  String.length (text_of (blocks w paths))
  = total_length (map (body_of w) paths) + total_length paths
    + 6 * List.length paths.
Proof.
  unfold text_of. rewrite length_concat_empty.
  unfold blocks.
  induction paths as [|p paths IH].
  - reflexivity.
  - simpl flat_map. simpl map. rewrite !total_length_cons.
    rewrite IH. simpl render.
    rewrite !length_append. simpl String.length. rewrite !length_append.
    simpl String.length. simpl List.length. lia.
Qed.

Lemma encoded_size_ascii (text : string) :
  ascii_only text = true -> encoded_size text = String.length text.
Proof.
  induction text as [|c text IH]; simpl.
  - reflexivity.
  - intros H. apply andb_true_iff in H. destruct H as [Hc Htext].
    unfold char_bytes. rewrite Hc, (IH Htext). reflexivity.
Qed.

(** On such a list, when the text written is plain ASCII, the fields of the
    result are tied together: the output file holds as many bytes as
    [chars_count], plus the lengths of the paths, plus six for every file
    (["# "], [":"] and three line ends). *)
Theorem listing_of_list_size :
  forall self w paths r,
    (forall p, In p paths -> is_output self p = false) ->
    open_write w (output_filename self) = None ->
    ascii_only (text_of (blocks w paths)) = true ->
    outcome (listing_of self w (PyList paths)) = Return r ->
    file_size r
    = (inject_Z (Z.of_nat (chars_count r + total_length paths
                           + 6 * files_count r)) / 1024 / 1024)%Q.
Proof.
  intros self w paths r Hno Hopen Hascii Hr.
  rewrite (listing_of_list_run self w paths Hno Hopen) in Hr.
  simpl in Hr. inversion Hr; subst r; clear Hr. simpl.
  unfold getsize_mb.
  now rewrite (encoded_size_ascii _ Hascii), length_text_of_blocks.
Qed.

Lemma listing_of_list_size_witness :
  outcome (listing_of Samples.lister Samples.locked
             (PyList ["/proj/a.txt"; "/proj/locked.bin"]))
  = Return (mkResult "out.txt" 73
              (getsize_mb (blocks Samples.locked
                             ["/proj/a.txt"; "/proj/locked.bin"]))
              2)
  /\ getsize_mb (blocks Samples.locked ["/proj/a.txt"; "/proj/locked.bin"])
     = (inject_Z (Z.of_nat (73 + 27 + 6 * 2)) / 1024 / 1024)%Q.
Proof.
  split.
  - reflexivity.
  - apply (listing_of_list_size Samples.lister Samples.locked
             ["/proj/a.txt"; "/proj/locked.bin"]
             (mkResult "out.txt" 73
                (getsize_mb (blocks Samples.locked
                               ["/proj/a.txt"; "/proj/locked.bin"]))
                2)).
    + intros p [<-|[<-|[]]]; reflexivity.
    + reflexivity.
    + reflexivity.
    + reflexivity.
Defined.

(** ** Where the yielded paths lie *)

Lemma append_assoc (a b c : string) :
  ((a ++ b) ++ c = a ++ (b ++ c))%string.
Proof.
  induction a as [|x a IH]; simpl.
  - reflexivity.
  - now rewrite IH.
Qed.

Lemma prefix_append (a t : string) : String.prefix a (a ++ t) = true.
Proof.
  induction a as [|c a IH]; simpl.
  - now destruct t.
  - destruct (ascii_dec c c) as [_|Hne].
    + exact IH.
    + now contradiction Hne.
Qed.

Lemma os_path_join_extends (a b : string) :
  starts_with_sep b = false -> exists t, os_path_join a b = (a ++ t)%string.
Proof.
  intros Hb. unfold os_path_join. rewrite Hb.
  destruct ((a =? "")%string || ends_with_sep a).
  - now exists b.
  - now exists ("/" ++ b)%string.
Qed.

Lemma tree_files_extend :
  (forall d, names_ok d = true ->
             forall top p, In p (tree_files top d) ->
                           exists t, p = (top ++ t)%string)
  /\ (forall ds, dirs_names_ok ds = true ->
                 forall top p, In p (dirs_files top ds) ->
                               exists t, p = (top ++ t)%string).
Proof.
  apply Dir_Dirs_ind.
  - intros files subdirs IH Hok top p Hin. simpl in Hok, Hin.
    apply andb_true_iff in Hok. destruct Hok as [Hfiles Hdirs].
    apply in_app_or in Hin. destruct Hin as [Hin|Hin].
    + apply in_map_iff in Hin. destruct Hin as [f [<- Hf]].
      rewrite forallb_forall in Hfiles.
      apply os_path_join_extends.
      apply negb_true_iff. now apply Hfiles.
    + now apply (IH Hdirs top).
  - intros _ top p [].
  - intros name d IHd rest IHrest Hok top p Hin. simpl in Hok, Hin.
    apply andb_true_iff in Hok. destruct Hok as [Hok Hrest].
    apply andb_true_iff in Hok. destruct Hok as [Hname Hd].
    apply in_app_or in Hin. destruct Hin as [Hin|Hin].
    + destruct (IHd Hd _ _ Hin) as [t ->].
      destruct (os_path_join_extends top name) as [t0 ->].
      * now apply negb_true_iff.
      * exists (t0 ++ t)%string. apply append_assoc.
    + now apply (IHrest Hrest top).
Qed.

Lemma lookup_app path (a b : list (string * Entry)) :
  lookup path (a ++ b)
  = match lookup path a with
    | Some e => Some e
    | None => lookup path b
    end.
Proof.
  induction a as [|[q e] a IH]; simpl.
  - reflexivity.
  - now destruct (q =? path)%string.
Qed.

Lemma lookup_files path top (files : list (string * FileNode)) d :
  lookup path (map (fun f => (os_path_join top (fst f), EFile (snd f))) files)
  <> Some (EDir d).
Proof.
  induction files as [|f files IH]; simpl.
  - discriminate.
  - destruct (os_path_join top (fst f) =? path)%string.
    + discriminate.
    + exact IH.
Qed.

Lemma index_names_ok path d' :
  (forall d, names_ok d = true ->
             forall top, lookup path (index top d) = Some (EDir d') ->
                         names_ok d' = true)
  /\ (forall ds, dirs_names_ok ds = true ->
                 forall top, lookup path (index_dirs top ds) = Some (EDir d') ->
                             names_ok d' = true).
Proof.
  apply Dir_Dirs_ind.
  - intros files subdirs IH Hok top Hl.
    simpl in Hl. destruct (top =? path)%string.
    + inversion Hl. now subst d'.
    + rewrite lookup_app in Hl.
      destruct (lookup path
                  (map (fun f => (os_path_join top (fst f), EFile (snd f)))
                       files)) as [e|] eqn:Hf.
      * inversion Hl. subst e. now apply lookup_files in Hf.
      * simpl in Hok. apply andb_true_iff in Hok.
        now apply (IH (proj2 Hok) top).
  - intros _ top Hl. discriminate Hl.
  - intros name d IHd rest IHrest Hok top Hl. simpl in Hok, Hl.
    apply andb_true_iff in Hok. destruct Hok as [Hok Hrest].
    apply andb_true_iff in Hok. destruct Hok as [_ Hd].
    rewrite lookup_app in Hl.
    destruct (lookup path (index (os_path_join top name) d)) as [e|] eqn:He.
    + inversion Hl. subst e. now apply (IHd Hd _ He).
    + now apply (IHrest Hrest top).
Qed.

Lemma regular_files_extend w top p :
  names_ok (tree w) = true ->
  In p (regular_files w top) ->
  exists t, p = (top ++ t)%string.
Proof.
  intros Hok Hin. unfold regular_files, stat in Hin.
  destruct (lookup top (index (mount w) (tree w))) as [[f|d]|] eqn:Hl;
    try contradiction.
  apply (proj1 tree_files_extend d); [|exact Hin].
  exact (proj1 (index_names_ok top d) (tree w) Hok (mount w) Hl).
Qed.

Lemma list_files_items self w paths :
  list_files self w = PyGenerator paths None ->
  exists keep, paths = filter keep (regular_files w (base_path self)).
Proof.
  unfold list_files.
  destruct (if use_gitignore self then load_gitignore self w
            else Return None) as [spec|e]; intros H; inversion H.
  exists (fun p => negb (skipped spec p)). apply walk_loop_os_walk.
Qed.

Lemma yielded_extend self w paths p :
  names_ok (tree w) = true ->
  list_files self w = PyGenerator paths None ->
  In p paths ->
  exists t, p = (base_path self ++ t)%string.
Proof.
  intros Hok Hgen Hin.
  destruct (list_files_items self w paths Hgen) as [keep ->].
  apply filter_In in Hin.
  now apply (regular_files_extend w (base_path self) p Hok).
Qed.

(** Every path [list_files] yields begins with [base_path], as long as no
    name in the tree begins with a slash. *)
Theorem yielded_paths_begin_with_base :
  forall self w paths,
    names_ok (tree w) = true ->
    list_files self w = PyGenerator paths None ->
    forall p, In p paths -> String.prefix (base_path self) p = true.
Proof.
  intros self w paths Hok Hgen p Hin.
  destruct (yielded_extend self w paths p Hok Hgen Hin) as [t ->].
  apply prefix_append.
Qed.

Lemma yielded_paths_begin_with_base_witness :
  list_files Samples.lister Samples.three_files
  = PyGenerator ["/proj/a.txt"; "/proj/b.txt"; "/proj/src/m.py"] None
  /\ String.prefix "/proj" "/proj/src/m.py" = true.
Proof.
  split.
  - reflexivity.
  - apply (yielded_paths_begin_with_base Samples.lister Samples.three_files
             ["/proj/a.txt"; "/proj/b.txt"; "/proj/src/m.py"]
             eq_refl eq_refl).
    simpl. auto.
Defined.

(** So when [output_filename] does not begin with [base_path] (the default
    name, or any bare file name, under a base path that is not empty), the
    test [path == self.output_filename] is never true: every yielded path is
    read and counted, an earlier listing lying in the tree among them. *)
Theorem output_name_outside_base_never_skipped :
  forall self w paths,
    names_ok (tree w) = true ->
    list_files self w = PyGenerator paths None ->
    String.prefix (base_path self) (output_filename self) = false ->
    _read_files_content self w (list_files self w)
    = (Return (total_length (map (body_of w) paths), map (body_of w) paths),
       PyGenerator [] None).
Proof.
  intros self w paths Hok Hgen Hout.
  rewrite Hgen, read_files_content_generator.
  rewrite bodies_without_output; [reflexivity|].
  intros p Hin. unfold is_output.
  apply String.eqb_neq. intros ->.
  destruct (yielded_extend self w paths _ Hok Hgen Hin) as [t Ht].
  rewrite Ht, prefix_append in Hout. discriminate Hout.
Qed.

Lemma output_name_outside_base_never_skipped_witness :
  list_files Samples.lister Samples.locked
  = PyGenerator ["/proj/a.txt"; "/proj/out.txt"; "/proj/locked.bin";
                 "/proj/z.txt"] None
  /\ fst (_read_files_content Samples.lister Samples.locked
            (list_files Samples.lister Samples.locked))
     = Return (89,
               ["hello"; "# old listing";
                "Error reading file: [Errno 13] Permission denied: '/proj/locked.bin'";
                "end"]).
Proof.
  split.
  - reflexivity.
  - rewrite (output_name_outside_base_never_skipped
               Samples.lister Samples.locked
               ["/proj/a.txt"; "/proj/out.txt"; "/proj/locked.bin";
                "/proj/z.txt"] eq_refl eq_refl eq_refl).
    reflexivity.
Defined.

(** ** The default output name *)

Lemma value_snoc (s : list ascii) (c : ascii) :
  value (s ++ [c]) = 10 * value s + (nat_of_ascii c - 48).
Proof. unfold value. now rewrite fold_left_app. Qed.

Lemma value_digit (d : nat) : d < 10 -> nat_of_ascii (digit d) - 48 = d.
Proof.
  intros Hd. unfold digit. rewrite nat_ascii_embedding; lia.
Qed.

Lemma value_zero_padded (width : nat) : forall n,
  value (zero_padded width n) = n mod 10 ^ width.
Proof.
  induction width as [|width IH]; intros n.
  - reflexivity.
  - cbn [zero_padded]. rewrite value_snoc, IH, value_digit.
    + rewrite Nat.pow_succ_r', Nat.Div0.mod_mul_r. lia.
    + apply Nat.mod_upper_bound. lia.
Qed.

Lemma length_zero_padded (width : nat) : forall n,
  List.length (zero_padded width n) = width.
Proof.
  induction width as [|width IH]; intros n; cbn [zero_padded].
  - reflexivity.
  - rewrite length_app, IH. simpl. lia.
Qed.

Lemma zero_padded_inj (width n m : nat) :
  n < 10 ^ width -> m < 10 ^ width ->
  zero_padded width n = zero_padded width m -> n = m.
Proof.
  intros Hn Hm Heq. apply (f_equal value) in Heq.
  rewrite !value_zero_padded in Heq.
  now rewrite !Nat.mod_small in Heq.
Qed.

Lemma app_inj_length {A} (a a' b b' : list A) :
  List.length a = List.length a' ->
  a ++ b = a' ++ b' -> a = a' /\ b = b'.
Proof.
  revert a'. induction a as [|x a IH]; intros [|x' a'] Hlen Heq;
    simpl in *; try discriminate.
  - now split.
  - inversion Heq. subst x'.
    destruct (IH a') as [-> ->]; [lia|assumption|]. now split.
Qed.

Lemma length_strftime (now : datetime) : List.length (strftime now) = 15.
Proof.
  unfold strftime. rewrite !length_app, !length_zero_padded. reflexivity.
Qed.

Lemma strftime_inj (now1 now2 : datetime) :
  valid_datetime now1 = true -> valid_datetime now2 = true ->
  strftime now1 = strftime now2 -> now1 = now2.
Proof.
  unfold valid_datetime, strftime.
  destruct now1 as [y1 m1 d1 h1 i1 s1], now2 as [y2 m2 d2 h2 i2 s2].
  cbn [year month day hour minute second].
  intros H1 H2 Heq.
  rewrite !andb_true_iff, Nat.leb_le, !Nat.ltb_lt in H1, H2.
  destruct H1 as [[[[[[Hy1 Hy1'] Hm1] Hd1] Hh1] Hi1] Hs1].
  destruct H2 as [[[[[[Hy2 Hy2'] Hm2] Hd2] Hh2] Hi2] Hs2].
  apply app_inj_length in Heq; [|now rewrite !length_zero_padded].
  destruct Heq as [Hy Heq].
  apply app_inj_length in Heq; [|now rewrite !length_zero_padded].
  destruct Heq as [Hm Heq].
  apply app_inj_length in Heq; [|now rewrite !length_zero_padded].
  destruct Heq as [Hd Heq].
  apply app_inj_length in Heq; [|reflexivity].
  destruct Heq as [_ Heq].
  apply app_inj_length in Heq; [|now rewrite !length_zero_padded].
  destruct Heq as [Hh Heq].
  apply app_inj_length in Heq; [|now rewrite !length_zero_padded].
  destruct Heq as [Hi Hs].
  apply zero_padded_inj in Hy; [|simpl; lia|simpl; lia].
  apply zero_padded_inj in Hm; [|simpl; lia|simpl; lia].
  apply zero_padded_inj in Hd; [|simpl; lia|simpl; lia].
  apply zero_padded_inj in Hh; [|simpl; lia|simpl; lia].
  apply zero_padded_inj in Hi; [|simpl; lia|simpl; lia].
  apply zero_padded_inj in Hs; [|simpl; lia|simpl; lia].
  now subst.
Qed.

Lemma length_string_of_list_ascii (l : list ascii) :
  String.length (string_of_list_ascii l) = List.length l.
Proof.
  induction l as [|c l IH]; simpl.
  - reflexivity.
  - now rewrite IH.
Qed.

Lemma append_inj_length (a a' b b' : string) :
  String.length a = String.length a' ->
  (a ++ b = a' ++ b')%string -> a = a'.
Proof.
  revert a'. induction a as [|x a IH]; intros [|x' a'] Hlen Heq;
    simpl in *; try discriminate.
  - reflexivity.
  - inversion Heq. subst x'. f_equal. apply IH; [lia|assumption].
Qed.

Lemma append_inv_head (a x y : string) :
  (a ++ x = a ++ y)%string -> x = y.
Proof.
  induction a as [|c a IH]; simpl; intros H.
  - exact H.
  - inversion H. now apply IH.
Qed.

Lemma default_output_filename_inj (now1 now2 : datetime) :
  valid_datetime now1 = true -> valid_datetime now2 = true ->
  default_output_filename now1 = default_output_filename now2 ->
  now1 = now2.
Proof.
  intros H1 H2 Hrest. unfold default_output_filename in Hrest.
  apply append_inv_head in Hrest.
  apply append_inj_length in Hrest.
  - apply (f_equal list_ascii_of_string) in Hrest.
    rewrite !list_ascii_of_string_of_list_ascii in Hrest.
    now apply strftime_inj.
  - now rewrite !length_string_of_list_ascii, !length_strftime.
Qed.

(** Built without an output name, or with an empty one, a lister gets the
    name [listing_YYYYMMDD_HHMMSS.txt] of 27 characters, and two such
    listers share their output file only when built within the same
    second. *)
Theorem default_output_names :
  forall base1 base2 git1 git2 name1 name2 now1 now2,
    absent name1 = true -> absent name2 = true ->
    valid_datetime now1 = true -> valid_datetime now2 = true ->
    String.length (output_filename (__init__ base1 git1 name1 now1)) = 27
    /\ (output_filename (__init__ base1 git1 name1 now1)
        = output_filename (__init__ base2 git2 name2 now2)
        <-> now1 = now2).
Proof.
  intros base1 base2 git1 git2 name1 name2 now1 now2 Ha1 Ha2 Hv1 Hv2.
  assert (Hd : forall base git name now,
             absent name = true ->
             output_filename (__init__ base git name now)
             = default_output_filename now).
  { intros base git [name|] now Ha; simpl in *; [|reflexivity].
    now rewrite Ha. }
  rewrite !Hd by assumption.
  split.
  - unfold default_output_filename. rewrite !length_append.
    rewrite length_string_of_list_ascii, length_strftime. reflexivity.
  - split.
    + now apply default_output_filename_inj.
    + now intros ->.
Qed.

Lemma default_output_names_witness :
  output_filename (__init__ "/proj" true None Samples.noon)
  = "listing_20240309_120005.txt"
  /\ (output_filename (__init__ "/proj" true None Samples.noon)
      = output_filename (__init__ "/tmp" false (Some "") Samples.later)
      <-> Samples.noon = Samples.later).
Proof.
  split.
  - reflexivity.
  - apply (proj2 (default_output_names "/proj" "/tmp" true false
                    None (Some "") Samples.noon Samples.later
                    eq_refl eq_refl eq_refl eq_refl)).
Defined.

(** * The claims that rest on the lemmas above *)

(** ** What the walker yields and what is counted *)

Lemma list_files_by_rules self w :
  list_files self w
  = match rules_in_force self w with
    | Return spec =>
        PyGenerator (filter (fun p => negb (skipped spec p))
                            (regular_files w (base_path self))) None
    | Raise e => PyGenerator [] (Some e)
    end.
Proof.
  unfold list_files, rules_in_force.
  destruct (if use_gitignore self then load_gitignore self w
            else Return None) as [spec|e].
  - now rewrite walk_loop_os_walk.
  - reflexivity.
Qed.

Lemma listing_of_list_counts self w paths r :
  outcome (listing_of self w (PyList paths)) = Return r ->
  files_count r = List.length paths
  /\ chars_count r = total_length (bodies self w paths).
Proof.
  unfold listing_of. rewrite read_files_content_list.
  destruct (open_write w (output_filename self)); simpl; [discriminate|].
  destruct (write_loop self (bodies self w paths) 0 paths []) as [ws [u|e]];
    simpl; intros H; inversion H.
  now split.
Qed.

(** C3, as the code has it.  The walker yields, in tree order, the regular
    files under the base path that the rules in force do not exclude, the
    [.gitignore] file among them.  Whenever the statements of
    [generate_listing_file] complete on a list of paths, [files_count] is
    the number of those paths, failed reads counted.  For a root with
    [a.txt] ("hello"), [b.log] and a [.gitignore] holding [*.log] the walker
    yields two paths, and on them [files_count] is 2 and [chars_count] 10. *)
Theorem files_count_counts_yielded_paths :
  (forall self w,
      list_files self w
      = match rules_in_force self w with
        | Return spec =>
            PyGenerator (filter (fun p => negb (skipped spec p))
                                (regular_files w (base_path self))) None
        | Raise e => PyGenerator [] (Some e)
        end)
  /\ (forall self w paths r,
         outcome (listing_of self w (PyList paths)) = Return r ->
         files_count r = List.length paths)
  /\ yielded (list_files Samples.lister Samples.scenario)
     = ["/proj/a.txt"; "/proj/.gitignore"]
  /\ (exists r,
         outcome (listing_of Samples.lister Samples.scenario
                    (PyList (yielded (list_files Samples.lister
                                                 Samples.scenario))))
         = Return r
         /\ files_count r = 2 /\ chars_count r = 10).
Proof.
  split; [|split; [|split]].
  - apply list_files_by_rules.
  - intros self w paths r Hr.
    exact (proj1 (listing_of_list_counts self w paths r Hr)).
  - reflexivity.
  - eexists. split; [reflexivity|]. split; reflexivity.
Qed.

Lemma files_count_counts_yielded_paths_witness :
  outcome (listing_of Samples.lister Samples.unreadable
             (PyList ["/proj/a.txt"; "/proj/locked.bin"; "/proj/z.txt"]))
  = Return (mkResult "out.txt" 76
              (getsize_mb (blocks Samples.unreadable
                             ["/proj/a.txt"; "/proj/locked.bin";
                              "/proj/z.txt"]))
              3)
  /\ files_count (mkResult "out.txt" 76
                    (getsize_mb (blocks Samples.unreadable
                                   ["/proj/a.txt"; "/proj/locked.bin";
                                    "/proj/z.txt"]))
                    3)
     = List.length ["/proj/a.txt"; "/proj/locked.bin"; "/proj/z.txt"].
Proof.
  split.
  - reflexivity.
  - apply (proj1 (proj2 files_count_counts_yielded_paths)
             Samples.lister Samples.unreadable
             ["/proj/a.txt"; "/proj/locked.bin"; "/proj/z.txt"]).
    reflexivity.
Defined.

(** C3, as the claim has it, fails on its own example.  Were [files_count]
    the number of paths the walker yields and 1 in that example, the walker
    would yield one path there; it yields two, and the character total is
    10. *)
Lemma scenario_counts_counterexample :
  ~ ((forall self w r,
         outcome (generate_listing_file self w) = Return r ->
         files_count r = List.length (yielded (list_files self w)))
     /\ exists r,
          outcome (generate_listing_file Samples.lister Samples.scenario)
          = Return r
          /\ files_count r = 1 /\ chars_count r = 5)
  /\ List.length (yielded (list_files Samples.lister Samples.scenario)) = 2
  /\ fst (_read_files_content Samples.lister Samples.scenario
            (list_files Samples.lister Samples.scenario))
     = Return (10, ["hello"; "*.log"]).
Proof.
  split; [|split].
  - intros [Hcount [r [Hr [Hone _]]]].
    apply Hcount in Hr. rewrite Hone in Hr.
    change (1 = 2) in Hr. discriminate Hr.
  - reflexivity.
  - reflexivity.
Qed.

(** ** Which paths the output-file test excludes *)






(** ** A failed read in a run *)

(** C5. Where the run departs from the claim: for a tree with an unreadable
    [locked.bin] between two readable files, the pass over the paths keeps
    the diagnostic for it and goes on, but no block is written, for it or
    for any other path, and the run ends in a [TypeError]. *)
Theorem failed_read_run_writes_no_block :
  list_files Samples.lister Samples.unreadable
  = PyGenerator ["/proj/a.txt"; "/proj/locked.bin"; "/proj/z.txt"] None
  /\ fst (_read_files_content Samples.lister Samples.unreadable
            (list_files Samples.lister Samples.unreadable))
     = Return (76,
               ["hello";
                "Error reading file: [Errno 13] Permission denied: '/proj/locked.bin'";
                "end"])
  /\ generate_listing_file Samples.lister Samples.unreadable
     = mkRun (Raise no_len) (Some []).
Proof. repeat split. Qed.

(** ** The order of the walk *)

Scheme same_entries_mut := Minimality for same_entries Sort Prop
  with same_subdirs_mut := Minimality for same_subdirs Sort Prop.
Combined Scheme same_entries_both from same_entries_mut, same_subdirs_mut.







